(** * The file matcher of pkg/stanza/fileconsumer/matcher

    A shallow embedding of [matcher.go]: the configuration records
    [Criteria], [OrderingCriteria] and [Sort], the constructor [New] and the
    method [Matcher.MatchFiles], followed by the properties of both.

    [matcher.go] calls three collaborators whose code lives elsewhere:
    the packages [internal/finder] and [internal/filter] of the same
    directory and Go's [regexp].  They are gathered in the record [Deps] and
    every theorem holds for all of them. *)

From Stdlib Require Import String Ascii List ZArith Lia Bool.
Import ListNotations.
Open Scope string_scope.
Open Scope Z_scope.

(** ** Go errors

    An [error] value of Go is either nil or a pointer to one of the error
    structs below; nil is [None] in [option error]. *)

#[warnings="-register-all"]
Inductive error : Type :=
| errorString (msg : string)                (* fmt.Errorf without a %w verb *)
| wrapError (prefix : string) (err : error) (* fmt.Errorf("prefix%w", err) *)
| joinError (errs : list error).            (* built by errors.Join *)

Definition newline : string := String (ascii_of_nat 10) EmptyString.

(** The [Error()] method.  A [joinError] prints its members separated by a
    newline; [errors.Join] never builds one with no member, and that case
    prints as the empty string here. *)
Fixpoint Error (e : error) : string :=
  match e with
  | errorString msg => msg
  | wrapError prefix err => prefix ++ Error err
  | joinError errs =>
      match errs with
      | [] => ""
      | e0 :: rest =>
          Error e0 ++
          (fix tail (l : list error) : string :=
             match l with
             | [] => ""
             | x :: l' => newline ++ Error x ++ tail l'
             end) rest
      end
  end.

(** [errors.Join]: nil arguments are discarded, and the result is nil when
    nothing is left. *)
Fixpoint non_nil (errs : list (option error)) : list error :=
  match errs with
  | [] => []
  | None :: rest => non_nil rest
  | Some e :: rest => e :: non_nil rest
  end.

Definition errors_Join (errs : list (option error)) : option error :=
  match non_nil errs with
  | [] => None
  | l => Some (joinError l)
  end.

(** [strings.Contains]: [substr] occurs somewhere in [s]. *)
Fixpoint strings_Contains (s substr : string) : bool :=
  if String.prefix substr s then true
  else match s with
       | EmptyString => false
       | String _ s' => strings_Contains s' substr
       end.

(** The message of an error value, the empty string for nil. *)
Definition message (e : option error) : string :=
  match e with
  | None => ""
  | Some err => Error err
  end.

(** ** Configuration *)

Definition sortTypeNumeric : string := "numeric".
Definition sortTypeTimestamp : string := "timestamp".
Definition sortTypeAlphabetical : string := "alphabetical".

Definition defaultOrderingCriteriaTopN : Z := 1.

Record Sort : Type := mkSort {
  SortType : string;
  RegexKey : string;
  Ascending : bool;
  Layout : string;
  Location : string
}.

(** [TopN] is a Go [int]; it is only ever compared, so it is an integer
    with no wrap-around to write out.  A field left out of the
    configuration keeps Go's zero value: [0] for [TopN], the empty string
    for [Regex], the empty list for [SortBy]. *)
Record OrderingCriteria : Type := mkOrderingCriteria {
  Regex : string;
  TopN : Z;
  SortBy : list Sort
}.

(** The field [OrderingCriteria] of the source is [Ordering] here, its type
    keeping the name. *)
Record Criteria : Type := mkCriteria {
  Include : list string;
  Exclude : list string;
  Ordering : OrderingCriteria
}.

(** ** The collaborators of matcher.go

    [regexp.Compile], [filter.SortNumeric], [filter.SortAlphabetical] and
    [filter.SortTemporal] return a value and an error of which [New] reads
    the value only when the error is nil: they are sums.  [finder.FindFiles]
    and [filter.Filter] return a list and an error that [MatchFiles] reads
    both: they are pairs. *)
Record Deps : Type := mkDeps {
  Regexp : Type;
  FilterOption : Type;
  regexp_Compile : string -> Regexp + error;
  finder_Validate : list string -> option error;
  finder_FindFiles : list string -> list string -> list string * option error;
  filter_SortNumeric : string -> bool -> FilterOption + error;
  filter_SortAlphabetical : string -> bool -> FilterOption + error;
  filter_SortTemporal : string -> bool -> string -> string -> FilterOption + error;
  filter_Filter :
    list string -> option Regexp -> list FilterOption -> list string * option error
}.

(** ** The matcher *)

Record Matcher (D : Deps) : Type := mkMatcher {
  include : list string;
  exclude : list string;
  regex : option (Regexp D);
  topN : Z;
  filterOpts : list (FilterOption D)
}.

Arguments mkMatcher {D}.
Arguments include {D}.
Arguments exclude {D}.
Arguments regex {D}.
Arguments topN {D}.
Arguments filterOpts {D}.

(** What a call of [MatchFiles] does: it returns its two results, or the
    slice expression [result[:m.topN]] panics. *)
Inductive outcome : Type :=
| Returned (files : list string) (err : option error)
| Panicked.

(** The slice expression [s[:n]] for [n] at most [length s]: a negative [n]
    panics.  ([MatchFiles] reaches it only when [n < length s].) *)
Definition slice_to (s : list string) (n : Z) : option (list string) :=
  if n <? 0 then None else Some (firstn (Z.to_nat n) s).

Section Matcher.

Context (D : Deps).

(** One round of the loop of [New] over [SortBy]: the option built for one
    entry, or the error that ends [New]. *)
Definition sortOption (sc : Sort) : FilterOption D + error :=
  if String.eqb (SortType sc) sortTypeNumeric then
    match filter_SortNumeric D (RegexKey sc) (Ascending sc) with
    | inr err => inr (wrapError "numeric sort: " err)
    | inl f => inl f
    end
  else if String.eqb (SortType sc) sortTypeAlphabetical then
    match filter_SortAlphabetical D (RegexKey sc) (Ascending sc) with
    | inr err => inr (wrapError "alphabetical sort: " err)
    | inl f => inl f
    end
  else if String.eqb (SortType sc) sortTypeTimestamp then
    match filter_SortTemporal D (RegexKey sc) (Ascending sc) (Layout sc) (Location sc) with
    | inr err => inr (wrapError "timestamp sort: " err)
    | inl f => inl f
    end
  else inr (errorString "'sort_type' must be specified").

(** The loop itself: [filterOpts] grows by one option per entry, and the
    first error returns. *)
Fixpoint sortOptions (sortBy : list Sort) (filterOpts : list (FilterOption D))
  : list (FilterOption D) + error :=
  match sortBy with
  | [] => inl filterOpts
  | sc :: rest =>
      match sortOption sc with
      | inr err => inr err
      | inl f => sortOptions rest (filterOpts ++ [f])
      end
  end.

(** [New] returns a pointer and an error; the nil pointer is [None]. *)
Definition New (c : Criteria) : option (Matcher D) * option error :=
  if (length (Include c) =? 0)%nat then
    (None, Some (errorString "'include' must be specified"))
  else
  match finder_Validate D (Include c) with
  | Some err => (None, Some (wrapError "include: " err))
  | None =>
  match finder_Validate D (Exclude c) with
  | Some err => (None, Some (wrapError "exclude: " err))
  | None =>
  if (length (SortBy (Ordering c)) =? 0)%nat then
    (Some {| include := Include c; exclude := Exclude c;
             regex := None; topN := 0; filterOpts := [] |}, None)
  else
  if String.eqb (Regex (Ordering c)) "" then
    (None, Some (errorString "'regex' must be specified when 'sort_by' is specified"))
  else
  if TopN (Ordering c) <? 0 then
    (None, Some (errorString "'top_n' must be a positive integer"))
  else
  let TopN' :=
    if TopN (Ordering c) =? 0 then defaultOrderingCriteriaTopN
    else TopN (Ordering c) in
  match regexp_Compile D (Regex (Ordering c)) with
  | inr err => (None, Some (wrapError "compile regex: " err))
  | inl re =>
  match sortOptions (SortBy (Ordering c)) [] with
  | inr err => (None, Some err)
  | inl opts =>
    (Some {| include := Include c; exclude := Exclude c;
             regex := Some re; topN := TopN'; filterOpts := opts |}, None)
  end end end end.

Definition noFilesMatch : string := "no files match the configured criteria".

Definition MatchFiles (m : Matcher D) : outcome :=
  let errs : option error := None in
  let '(files, err) := finder_FindFiles D (include m) (exclude m) in
  let errs :=
    match err with
    | Some _ => errors_Join [errs; err]
    | None => errs
    end in
  if (length files =? 0)%nat then
    Returned files (errors_Join [Some (errorString noFilesMatch); errs])
  else
  if (length (filterOpts m) =? 0)%nat then
    Returned files errs
  else
  let '(result, err) := filter_Filter D files (regex m) (filterOpts m) in
  if (length result =? 0)%nat then
    Returned result (errors_Join [err; errs])
  else
  if Z.of_nat (length result) <=? topN m then
    Returned result (errors_Join [err; errs])
  else
  match slice_to result (topN m) with
  | Some top => Returned top (errors_Join [err; errs])
  | None => Panicked
  end.

End Matcher.

(** ** Vocabulary of the statements *)

(** A sort type that the switch of [New] sends to its default case. *)
Definition unrecognized (sortType : string) : Prop :=
  sortType <> sortTypeNumeric /\
  sortType <> sortTypeAlphabetical /\
  sortType <> sortTypeTimestamp.

(** The resolved [topN] of a criteria that asks for ranking. *)
Definition resolvedTopN (c : Criteria) : Z :=
  if TopN (Ordering c) =? 0 then defaultOrderingCriteriaTopN
  else TopN (Ordering c).

(** The criteria [c] with another [top_n]. *)
Definition withTopN (c : Criteria) (n : Z) : Criteria :=
  {| Include := Include c; Exclude := Exclude c;
     Ordering := {| Regex := Regex (Ordering c); TopN := n;
                    SortBy := SortBy (Ordering c) |} |}.

(** Two [sort_by] entries that [New] cannot tell apart: the same type, key
    and direction, and the same layout and location when the type is
    timestamp (the two fields the source marks "Timestamp only"). *)
Definition sameOrder (a b : Sort) : Prop :=
  SortType a = SortType b /\ RegexKey a = RegexKey b /\
  Ascending a = Ascending b /\
  (SortType a = sortTypeTimestamp -> Layout a = Layout b /\ Location a = Location b).

(** The texts with which the message of an error of [New] can start: its
    four messages and the six prefixes it wraps a collaborator's error in. *)
Definition newErrorPrefixes : list string :=
  ["'include' must be specified"; "include: "; "exclude: ";
   "'regex' must be specified when 'sort_by' is specified";
   "'top_n' must be a positive integer"; "compile regex: ";
   "numeric sort: "; "alphabetical sort: "; "timestamp sort: ";
   "'sort_type' must be specified"].

(** ** A directory and a plain-text regex engine to run the matcher on

    The definitions of this part stand for the collaborators on a small
    directory, so that [New] and [MatchFiles] can be evaluated. *)

Module Fixture.

(** A glob pattern is well formed when every bracket is closed and no
    escape is left dangling at its end. *)
Fixpoint well_formed (in_bracket : bool) (p : string) : bool :=
  match p with
  | EmptyString => negb in_bracket
  | String c p' =>
      if Ascii.eqb c "\" then
        match p' with
        | EmptyString => false
        | String _ p'' => well_formed in_bracket p''
        end
      else if Ascii.eqb c "[" then well_formed true p'
      else if Ascii.eqb c "]" then well_formed false p'
      else well_formed in_bracket p'
  end.

Definition badPattern : error := errorString "syntax error in pattern".

(** Modelled from the spec: the Pattern Validator ([finder.Validate] of
    internal/finder, whose code is outside matcher.go).  It returns an error
    if any pattern is syntactically invalid: unbalanced brackets, bad
    escape. *)
Definition Validate (patterns : list string) : option error :=
  if forallb (well_formed false) patterns then None
  else Some (wrapError "parse glob: " badPattern).

(** Glob semantics: [*] stands for any run of characters within one path
    segment, every other character for itself. *)
Fixpoint glob (p s : string) : bool :=
  match p with
  | EmptyString => match s with EmptyString => true | _ => false end
  | String c p' =>
      if Ascii.eqb c "*" then
        (fix star (s : string) : bool :=
           glob p' s ||
           match s with
           | EmptyString => false
           | String d s' => if Ascii.eqb d "/" then false else star s'
           end) s
      else
        match s with
        | EmptyString => false
        | String d s' => Ascii.eqb c d && glob p' s'
        end
  end.

(** The files on disk. *)
Definition disk : list string :=
  ["/logs/app.3.log"; "/logs/app.1.log"; "/logs/app.5.log"; "/logs/notes.txt"].

(** Modelled from the spec: the File Finder ([finder.FindFiles] of
    internal/finder, whose code is outside matcher.go).  The paths matched
    by an include pattern and by no exclude pattern, each once; a pattern
    that cannot be expanded is reported and the scan goes on. *)
Definition FindFiles (includes excludes : list string)
  : list string * option error :=
  (filter (fun f => existsb (fun p => glob p f) includes
                    && negb (existsb (fun p => glob p f) excludes)) disk,
   errors_Join
     (map (fun p => if well_formed false p then None else Some badPattern)
          includes)).

(** A regex engine for patterns that are plain text: the compiled pattern
    is the text to find, and an unbalanced parenthesis does not compile. *)
Fixpoint balanced (depth : nat) (p : string) : bool :=
  match p with
  | EmptyString => (depth =? 0)%nat
  | String c p' =>
      if Ascii.eqb c "(" then balanced (S depth) p'
      else if Ascii.eqb c ")" then
        match depth with
        | O => false
        | S d => balanced d p'
        end
      else balanced depth p'
  end.

Definition Compile (p : string) : string + error :=
  if balanced 0 p then inl p
  else inr (errorString ("error parsing regexp: missing closing ): `" ++ p ++ "`")).

(** Modelled from the spec: the comparator constructors
    [filter.SortNumeric] and [filter.SortAlphabetical] of internal/filter,
    whose code is outside matcher.go.  They fail to build on an empty
    capture group.  A comparator is its direction, [true] for ascending,
    and compares whole paths. *)
Definition SortKeyed (key : string) (ascending : bool) : bool + error :=
  if String.eqb key "" then inr (errorString "regex key must be specified")
  else inl ascending.

(** Modelled from the spec: [filter.SortTemporal] of internal/filter, which
    fails to build on an empty layout too. *)
Definition SortTemporal (key : string) (ascending : bool) (layout location : string)
  : bool + error :=
  if String.eqb key "" then inr (errorString "regex key must be specified")
  else if String.eqb layout "" then inr (errorString "layout must be specified")
  else inl ascending.

(** A stable insertion sort of paths, either way. *)
Fixpoint insert (ascending : bool) (x : string) (l : list string) : list string :=
  match l with
  | [] => [x]
  | y :: l' =>
      if (if ascending then String.leb x y else String.leb y x)
      then x :: l else y :: insert ascending x l'
  end.

Definition stable_sort (ascending : bool) (l : list string) : list string :=
  fold_right (insert ascending) [] l.

(** The Key Extractor finds the text of the regex in the path; a nil regex
    finds nothing. *)
Definition matches (re : option string) (f : string) : bool :=
  match re with
  | Some text => strings_Contains f text
  | None => false
  end.

(** Modelled from the spec: the Ranking Filter ([filter.Filter] of
    internal/filter, whose code is outside matcher.go).  Files the regex
    does not match are dropped, each with a failure of its own in the
    aggregated error; the others are sorted by every comparator in turn. *)
Definition Filter (files : list string) (re : option string) (opts : list bool)
  : list string * option error :=
  (fold_left (fun items ascending => stable_sort ascending items) opts
             (filter (matches re) files),
   errors_Join
     (map (fun f => if matches re f then None
                    else Some (errorString ("'" ++ f ++ "' does not match regex")))
          files)).

Definition deps : Deps :=
  {| Regexp := string;
     FilterOption := bool;
     regexp_Compile := Compile;
     finder_Validate := Validate;
     finder_FindFiles := FindFiles;
     filter_SortNumeric := SortKeyed;
     filter_SortAlphabetical := SortKeyed;
     filter_SortTemporal := SortTemporal;
     filter_Filter := Filter |}.

Definition by_name : Sort :=
  {| SortType := "alphabetical"; RegexKey := "name"; Ascending := true;
     Layout := ""; Location := "" |}.

Definition logs (ordering : OrderingCriteria) : Criteria :=
  {| Include := ["/logs/*.log"]; Exclude := []; Ordering := ordering |}.

(** The matcher [New] builds for [logs] ranked by name with the text
    [text] as its regex and [n] as its resolved [topN]. *)
Definition ranked (text : string) (n : Z) : Matcher deps :=
  @mkMatcher deps ["/logs/*.log"] [] (Some text) n [true].

(** The one [New] builds for [logs] without ranking. *)
Definition unranked : Matcher deps :=
  @mkMatcher deps ["/logs/*.log"] [] None 0 [].

Definition found : list string :=
  ["/logs/app.3.log"; "/logs/app.1.log"; "/logs/app.5.log"].

Definition sorted : list string :=
  ["/logs/app.1.log"; "/logs/app.3.log"; "/logs/app.5.log"].

End Fixture.

(** ** Strings and error messages *)

Lemma append_empty_r (s : string) : s ++ "" = s.
Proof. induction s as [|c s IH]; simpl; [reflexivity | now rewrite IH]. Qed.

Lemma prefix_append (a b : string) : String.prefix a (a ++ b) = true.
Proof.
  induction a as [|x a IH]; simpl.
  - now destruct b.
  - destruct (ascii_dec x x) as [_|ne]; [exact IH | now elim ne].
Qed.

Lemma Contains_here (a b : string) : strings_Contains (a ++ b) a = true.
Proof.
  pose proof (prefix_append a b) as H.
  destruct (a ++ b); cbn [strings_Contains]; rewrite H; reflexivity.
Qed.

Lemma Contains_self (a : string) : strings_Contains a a = true.
Proof. rewrite <- (append_empty_r a) at 1. apply Contains_here. Qed.

Lemma Contains_skip (p s sub : string) :
  strings_Contains s sub = true -> strings_Contains (p ++ s) sub = true.
Proof.
  intros H. induction p as [|c p IH]; [exact H|].
  change (String c p ++ s) with (String c (p ++ s)).
  cbn [strings_Contains]. rewrite IH.
  now destruct (String.prefix sub (String c (p ++ s))).
Qed.

(** The two-argument joins of [MatchFiles], and what they print. *)
Lemma Join_scan (ferr : option error) :
  errors_Join [None; ferr] =
  match ferr with
  | Some e => Some (joinError [e])
  | None => None
  end.
Proof. now destruct ferr. Qed.

Lemma message_Join_scan (ferr : option error) :
  message (errors_Join [None; ferr]) = message ferr.
Proof. destruct ferr; simpl; [apply append_empty_r | reflexivity]. Qed.

Lemma message_Join2 (a b : option error) :
  message (errors_Join [a; b]) =
  match a, b with
  | Some x, Some y => Error x ++ newline ++ Error y
  | Some x, None => Error x
  | None, _ => message b
  end.
Proof.
  destruct a as [x|], b as [y|]; cbn [errors_Join non_nil message Error];
    rewrite ?append_empty_r; reflexivity.
Qed.

Lemma Join2_nil (a b : option error) :
  errors_Join [a; b] = None <-> a = None /\ b = None.
Proof.
  destruct a, b; cbn; split; intros H; try discriminate; try (now destruct H); auto.
Qed.

Lemma length_nonzero {A : Type} (l : list A) : l <> [] -> (length l =? 0)%nat = false.
Proof. destruct l; simpl; [now intros H; elim H | reflexivity]. Qed.

(** ** What [New] and [MatchFiles] compute *)

Section Properties.

Context (D : Deps).

Ltac case_New :=
  unfold New;
  repeat match goal with
         | |- context [if ?b then _ else _] => destruct b eqn:?
         | |- context [match ?x with _ => _ end] => destruct x eqn:?
         end.

Lemma sortOption_unrecognized (sc : Sort) :
  unrecognized (SortType sc) ->
  sortOption D sc = inr (errorString "'sort_type' must be specified").
Proof.
  intros (Hn & Ha & Ht). unfold sortOption.
  apply String.eqb_neq in Hn, Ha, Ht. now rewrite Hn, Ha, Ht.
Qed.

Lemma sortOptions_unrecognized (sortBy : list Sort) (sc : Sort) :
  In sc sortBy -> unrecognized (SortType sc) ->
  forall acc, exists err, sortOptions D sortBy acc = inr err.
Proof.
  intros Hin Hun. induction sortBy as [|s rest IH]; [contradiction|].
  intros acc. simpl. destruct Hin as [->|Hin].
  - rewrite sortOption_unrecognized by assumption. eauto.
  - destruct (sortOption D s); [apply IH; assumption | eauto].
Qed.

Lemma sortOptions_length (sortBy : list Sort) :
  forall acc opts, sortOptions D sortBy acc = inl opts ->
  length opts = (length acc + length sortBy)%nat.
Proof.
  induction sortBy as [|s rest IH]; simpl; intros acc opts H.
  - injection H as <-. lia.
  - destruct (sortOption D s); [|discriminate].
    apply IH in H. rewrite H, length_app. simpl. lia.
Qed.

(** [New] returns a matcher and no error, or an error and no matcher. *)
Lemma New_total (c : Criteria) :
  (exists m, New D c = (Some m, None)) \/ (exists err, New D c = (None, Some err)).
Proof. case_New; eauto. Qed.

(** Without [sort_by], [New] checks the patterns and nothing else. *)
Lemma New_unranked (c : Criteria) :
  SortBy (Ordering c) = [] -> Include c <> [] ->
  finder_Validate D (Include c) = None ->
  finder_Validate D (Exclude c) = None ->
  New D c = (Some {| include := Include c; exclude := Exclude c;
                     regex := None; topN := 0; filterOpts := [] |}, None).
Proof.
  intros Hs Hi Hvi Hve. unfold New.
  now rewrite (length_nonzero _ Hi), Hvi, Hve, Hs.
Qed.

(** With [sort_by], a matcher that [New] returns went through every check. *)
Lemma New_ranked (c : Criteria) (m : Matcher D) :
  New D c = (Some m, None) -> SortBy (Ordering c) <> [] ->
  Regex (Ordering c) <> "" /\ 0 <= TopN (Ordering c) /\
  exists re opts,
    regexp_Compile D (Regex (Ordering c)) = inl re /\
    sortOptions D (SortBy (Ordering c)) [] = inl opts /\
    m = {| include := Include c; exclude := Exclude c; regex := Some re;
           topN := resolvedTopN c; filterOpts := opts |}.
Proof.
  intros H Hs. revert H. unfold New.
  rewrite (length_nonzero _ Hs).
  destruct (length (Include c) =? 0)%nat; [discriminate|].
  destruct (finder_Validate D (Include c)); [discriminate|].
  destruct (finder_Validate D (Exclude c)); [discriminate|].
  destruct (String.eqb_spec (Regex (Ordering c)) ""); [discriminate|].
  destruct (Z.ltb_spec (TopN (Ordering c)) 0); [discriminate|].
  destruct (regexp_Compile D (Regex (Ordering c))) as [re|]; [|discriminate].
  destruct (sortOptions D (SortBy (Ordering c)) []) as [opts|]; [|discriminate].
  intros [= <-]. repeat split; try assumption. now exists re, opts.
Qed.

Lemma New_ranked_topN (c : Criteria) (m : Matcher D) :
  New D c = (Some m, None) -> SortBy (Ordering c) <> [] ->
  topN m = resolvedTopN c /\ 1 <= topN m /\ filterOpts m <> [].
Proof.
  intros H Hs. destruct (New_ranked c m H Hs) as (_ & Hn & re & opts & _ & Ho & ->).
  cbn [topN filterOpts]. split; [reflexivity|]. split.
  - unfold resolvedTopN, defaultOrderingCriteriaTopN.
    destruct (Z.eqb_spec (TopN (Ordering c)) 0); lia.
  - apply sortOptions_length in Ho. intros ->.
    destruct (SortBy (Ordering c)); [now elim Hs | discriminate].
Qed.

(** The three ways out of [MatchFiles] after the Finder. *)
Lemma MatchFiles_none (m : Matcher D) (ferr : option error) :
  finder_FindFiles D (include m) (exclude m) = ([], ferr) ->
  MatchFiles D m =
  Returned [] (errors_Join [Some (errorString noFilesMatch); errors_Join [None; ferr]]).
Proof. intros H. unfold MatchFiles. rewrite H. now destruct ferr. Qed.

Lemma MatchFiles_unranked (m : Matcher D) (files : list string) (ferr : option error) :
  filterOpts m = [] ->
  finder_FindFiles D (include m) (exclude m) = (files, ferr) ->
  files <> [] ->
  MatchFiles D m = Returned files (errors_Join [None; ferr]).
Proof.
  intros Ho H Hf. unfold MatchFiles.
  rewrite H, (length_nonzero _ Hf), Ho. now destruct ferr.
Qed.

Lemma MatchFiles_ranked (m : Matcher D) (files ranked : list string)
      (ferr rerr : option error) :
  filterOpts m <> [] -> 0 <= topN m ->
  finder_FindFiles D (include m) (exclude m) = (files, ferr) ->
  files <> [] ->
  filter_Filter D files (regex m) (filterOpts m) = (ranked, rerr) ->
  MatchFiles D m =
  Returned (firstn (Z.to_nat (topN m)) ranked)
           (errors_Join [rerr; errors_Join [None; ferr]]).
Proof.
  intros Ho Hn H Hf Hr. unfold MatchFiles.
  rewrite H, (length_nonzero _ Hf), (length_nonzero _ Ho), Hr.
  replace (match ferr with Some _ => errors_Join [None; ferr] | None => None end)
    with (errors_Join [None; ferr]) by now destruct ferr.
  destruct ranked as [|p ranked]; [now rewrite firstn_nil|].
  cbn [length Nat.eqb].
  destruct (Z.leb_spec (Z.of_nat (S (length ranked))) (topN m)).
  - rewrite firstn_all2; [reflexivity | simpl; lia].
  - unfold slice_to. destruct (Z.ltb_spec (topN m) 0); [lia | reflexivity].
Qed.

End Properties.

Lemma New_unranked_inv (D : Deps) (c : Criteria) (m : Matcher D) :
  New D c = (Some m, None) -> SortBy (Ordering c) = [] ->
  Include c <> [] /\
  m = {| include := Include c; exclude := Exclude c;
         regex := None; topN := 0; filterOpts := [] |}.
Proof.
  intros H Hs. revert H. unfold New. rewrite Hs.
  destruct (Include c); [discriminate|]. cbn [length Nat.eqb].
  destruct (finder_Validate D (s :: l)); [discriminate|].
  destruct (finder_Validate D (Exclude c)); [discriminate|].
  intros [= <-]. split; [discriminate | reflexivity].
Qed.

(** A matcher that [New] built never panics in [MatchFiles]. *)
Lemma MatchFiles_returns (D : Deps) (c : Criteria) (m : Matcher D) :
  New D c = (Some m, None) ->
  exists files err, MatchFiles D m = Returned files err.
Proof.
  intros HN.
  destruct (finder_FindFiles D (include m) (exclude m)) as [files ferr] eqn:HF.
  destruct files as [|f files].
  - rewrite (MatchFiles_none D m ferr HF). eauto.
  - destruct (SortBy (Ordering c)) as [|sc rest] eqn:Hs.
    + destruct (New_unranked_inv D c m HN Hs) as (_ & Hm).
      rewrite (MatchFiles_unranked D m (f :: files) ferr); eauto.
      * now rewrite Hm.
      * discriminate.
    + assert (Hne : SortBy (Ordering c) <> []) by now rewrite Hs.
      destruct (New_ranked_topN D c m HN Hne) as (_ & Hn & Ho).
      destruct (filter_Filter D (f :: files) (regex m) (filterOpts m))
        as [ranked rerr] eqn:HR.
      rewrite (MatchFiles_ranked D m (f :: files) ranked ferr rerr); eauto.
      * lia.
      * discriminate.
Qed.

(** ** MatchFiles *)

(** C1.  For a matcher that [New] built with ranking configured, when the
    Ranking Filter returns more entries than [topN], [MatchFiles] returns
    exactly the first [topN] of them, in the filter's order; when it returns
    at most [topN] entries, all of them are returned.  In both cases the
    returned error is the join of what the filter and the Finder reported and
    nothing more: it is nil when both are, so the discarded tail raises no
    error. *)
Theorem MatchFiles_truncates (D : Deps) (c : Criteria) (m : Matcher D)
    (files ranked : list string) (ferr rerr : option error) :
  New D c = (Some m, None) -> SortBy (Ordering c) <> [] ->
  finder_FindFiles D (include m) (exclude m) = (files, ferr) -> files <> [] ->
  filter_Filter D files (regex m) (filterOpts m) = (ranked, rerr) ->
  let top := firstn (Z.to_nat (topN m)) ranked in
  let err := errors_Join [rerr; errors_Join [None; ferr]] in
  (topN m < Z.of_nat (length ranked) ->
     MatchFiles D m = Returned top err /\ Z.of_nat (length top) = topN m) /\
  (Z.of_nat (length ranked) <= topN m -> MatchFiles D m = Returned ranked err) /\
  (rerr = None -> ferr = None -> err = None).
Proof.
  intros HN Hs HF Hf HR top err.
  destruct (New_ranked_topN D c m HN Hs) as (_ & Hn & Ho).
  pose proof (MatchFiles_ranked D m files ranked ferr rerr Ho ltac:(lia) HF Hf HR) as HM.
  fold top err in HM. repeat split.
  - exact HM.
  - unfold top. rewrite length_firstn. lia.
  - intros Hle. rewrite HM. unfold top. rewrite firstn_all2; [reflexivity | lia].
  - intros -> ->. reflexivity.
Qed.

Lemma MatchFiles_truncates_witness :
  MatchFiles Fixture.deps (Fixture.ranked "app" 2) =
    Returned ["/logs/app.1.log"; "/logs/app.3.log"] None /\
  MatchFiles Fixture.deps (Fixture.ranked "app" 3) = Returned Fixture.sorted None.
Proof.
  split.
  - apply (MatchFiles_truncates Fixture.deps
             (Fixture.logs {| Regex := "app"; TopN := 2; SortBy := [Fixture.by_name] |})
             (Fixture.ranked "app" 2) Fixture.found Fixture.sorted None None);
      [reflexivity | discriminate | reflexivity | discriminate | reflexivity
      | reflexivity].
  - apply (MatchFiles_truncates Fixture.deps
             (Fixture.logs {| Regex := "app"; TopN := 3; SortBy := [Fixture.by_name] |})
             (Fixture.ranked "app" 3) Fixture.found Fixture.sorted None None);
      [reflexivity | discriminate | reflexivity | discriminate | reflexivity
      | discriminate].
Defined.

(** C2.  For every matcher, when the Finder returns zero files, [MatchFiles]
    returns an empty result and a non-nil error whose message is "no files
    match the configured criteria", followed on a new line by the message of
    the Finder's scan error when there is one. *)
Theorem MatchFiles_no_files (D : Deps) (m : Matcher D) (ferr : option error) :
  finder_FindFiles D (include m) (exclude m) = ([], ferr) ->
  exists err,
    MatchFiles D m = Returned [] (Some err) /\
    Error err =
      noFilesMatch ++ match ferr with
                      | Some e => newline ++ Error e
                      | None => ""
                      end /\
    strings_Contains (Error err) noFilesMatch = true /\
    (forall e, ferr = Some e -> strings_Contains (Error err) (Error e) = true).
Proof.
  intros H. rewrite (MatchFiles_none D m ferr H).
  destruct ferr as [e|]; cbn [errors_Join non_nil].
  - eexists. split; [reflexivity|].
    cbn [Error]. rewrite !append_empty_r. split; [reflexivity|split].
    + apply Contains_here.
    + intros e' [= <-]. apply Contains_skip, Contains_skip, Contains_self.
  - eexists. split; [reflexivity|]. cbn [Error]. split; [reflexivity|split].
    + apply Contains_here.
    + discriminate.
Qed.

Lemma MatchFiles_no_files_witness :
  exists err,
    MatchFiles Fixture.deps (@mkMatcher Fixture.deps ["/logs/[*.log"] [] None 0 []) =
      Returned [] (Some err) /\
    Error err =
      noFilesMatch ++ newline ++ "syntax error in pattern" /\
    strings_Contains (Error err) noFilesMatch = true /\
    (forall e, Some (joinError [Fixture.badPattern]) = Some e ->
               strings_Contains (Error err) (Error e) = true).
Proof.
  apply (MatchFiles_no_files Fixture.deps
           (@mkMatcher Fixture.deps ["/logs/[*.log"] [] None 0 [])
           (Some (joinError [Fixture.badPattern]))).
  reflexivity.
Defined.

(** C3, as the code has it.  For a matcher that [New] built with ranking
    configured, when the Finder returns files and the Ranking Filter retains
    none of them, [MatchFiles] returns an empty result and the join of the
    filter's error with the Finder's: its message is the filter's message
    (the failures the filter named), then the Finder's, and [MatchFiles] adds
    no message of its own.  It is nil when both are nil. *)
Theorem MatchFiles_ranked_none (D : Deps) (c : Criteria) (m : Matcher D)
    (files : list string) (ferr rerr : option error) :
  New D c = (Some m, None) -> SortBy (Ordering c) <> [] ->
  finder_FindFiles D (include m) (exclude m) = (files, ferr) -> files <> [] ->
  filter_Filter D files (regex m) (filterOpts m) = ([], rerr) ->
  let err := errors_Join [rerr; errors_Join [None; ferr]] in
  MatchFiles D m = Returned [] err /\
  message err =
    match rerr, ferr with
    | Some r, Some f => Error r ++ newline ++ Error f
    | Some r, None => Error r
    | None, _ => message ferr
    end /\
  (forall r, rerr = Some r -> strings_Contains (message err) (Error r) = true) /\
  (err = None <-> rerr = None /\ ferr = None).
Proof.
  intros HN Hs HF Hf HR err.
  destruct (New_ranked_topN D c m HN Hs) as (_ & Hn & Ho).
  pose proof (MatchFiles_ranked D m files [] ferr rerr Ho ltac:(lia) HF Hf HR) as HM.
  rewrite firstn_nil in HM. fold err in HM.
  assert (Hmsg : message err =
                 match rerr, ferr with
                 | Some r, Some f => Error r ++ newline ++ Error f
                 | Some r, None => Error r
                 | None, _ => message ferr
                 end).
  { unfold err. rewrite message_Join2, Join_scan.
    destruct rerr, ferr; cbn [message Error]; rewrite ?append_empty_r; reflexivity. }
  split; [exact HM|]. split; [exact Hmsg|]. split; [|split].
  - intros r ->. rewrite Hmsg. destruct ferr; [apply Contains_here | apply Contains_self].
  - intros H. apply Join2_nil in H. rewrite Join_scan in H.
    destruct H as [-> H]. now destruct ferr.
  - intros [-> ->]. reflexivity.
Qed.

Lemma MatchFiles_ranked_none_witness :
  let rerr :=
    Some (joinError [errorString "'/logs/app.3.log' does not match regex";
                     errorString "'/logs/app.1.log' does not match regex";
                     errorString "'/logs/app.5.log' does not match regex"]) in
  let err := errors_Join [rerr; errors_Join [None; None]] in
  MatchFiles Fixture.deps (Fixture.ranked "rotated" 1) = Returned [] err /\
  message err = message rerr /\
  (forall r, rerr = Some r -> strings_Contains (message err) (Error r) = true) /\
  (err = None <-> rerr = None /\ @None error = None).
Proof.
  intros rerr.
  apply (MatchFiles_ranked_none Fixture.deps
           (Fixture.logs {| Regex := "rotated"; TopN := 0; SortBy := [Fixture.by_name] |})
           (Fixture.ranked "rotated" 1) Fixture.found None rerr);
    [reflexivity | discriminate | reflexivity | discriminate | reflexivity].
Defined.

(** C3 fails as stated: on the directory of [Fixture], with the ordering
    regex "rotated" that matches none of the three log files, [MatchFiles]
    returns an empty result and an error that names the three failures and
    says nothing of "no files match". *)
Lemma MatchFiles_ranked_none_counterexample :
  New Fixture.deps
      (Fixture.logs {| Regex := "rotated"; TopN := 0; SortBy := [Fixture.by_name] |})
    = (Some (Fixture.ranked "rotated" 1), None) /\
  fst (finder_FindFiles Fixture.deps ["/logs/*.log"] []) = Fixture.found /\
  fst (filter_Filter Fixture.deps Fixture.found (Some "rotated") [true]) = [] /\
  exists err,
    MatchFiles Fixture.deps (Fixture.ranked "rotated" 1) = Returned [] (Some err) /\
    Error err =
      "'/logs/app.3.log' does not match regex" ++ newline ++
      "'/logs/app.1.log' does not match regex" ++ newline ++
      "'/logs/app.5.log' does not match regex" /\
    strings_Contains (Error err) "no files match" = false.
Proof.
  split; [reflexivity|]. split; [reflexivity|]. split; [reflexivity|].
  eexists. split; [reflexivity|]. split; reflexivity.
Qed.

(** ** New *)

(** C4, as the code has it.  For every Criteria with a non-empty sort_by,
    [New] fails with an error and returns no Matcher whenever top_n is
    negative; when the checks before it pass, the error is the one about
    top_n. *)
Theorem New_negative_top_n (D : Deps) (c : Criteria) :
  SortBy (Ordering c) <> [] -> TopN (Ordering c) < 0 ->
  (exists err, New D c = (None, Some err)) /\
  (Include c <> [] ->
   finder_Validate D (Include c) = None ->
   finder_Validate D (Exclude c) = None ->
   Regex (Ordering c) <> "" ->
   New D c = (None, Some (errorString "'top_n' must be a positive integer"))).
Proof.
  intros Hs Hn. split.
  - destruct (New_total D c) as [[m H]|H]; [|exact H].
    destruct (New_ranked D c m H Hs) as (_ & H0 & _). lia.
  - intros Hi Hvi Hve Hr. unfold New.
    rewrite (length_nonzero _ Hi), Hvi, Hve, (length_nonzero _ Hs).
    apply String.eqb_neq in Hr. rewrite Hr.
    destruct (Z.ltb_spec (TopN (Ordering c)) 0); [reflexivity | lia].
Qed.

Lemma New_negative_top_n_witness :
  New Fixture.deps
      (Fixture.logs {| Regex := "app"; TopN := -1; SortBy := [Fixture.by_name] |})
    = (None, Some (errorString "'top_n' must be a positive integer")).
Proof.
  apply (New_negative_top_n Fixture.deps
           (Fixture.logs {| Regex := "app"; TopN := -1; SortBy := [Fixture.by_name] |}));
    [discriminate | reflexivity | discriminate | reflexivity | reflexivity
    | discriminate].
Defined.

(** C4 fails as stated: with no sort_by, [New] accepts a negative top_n. *)
Lemma New_negative_top_n_counterexample :
  TopN (Ordering (Fixture.logs {| Regex := ""; TopN := -1; SortBy := [] |})) < 0 /\
  New Fixture.deps (Fixture.logs {| Regex := ""; TopN := -1; SortBy := [] |})
    = (Some Fixture.unranked, None).
Proof. split; reflexivity. Qed.

(** C5, as the code has it.  Whenever sort_by is non-empty, a non-empty
    regex is required: a Criteria with a non-empty sort_by and an empty
    regex is invalid at construction and [New] returns an error, the one
    about regex when the pattern checks before it pass.  (A regex with an
    empty sort_by is accepted.) *)
Theorem New_regex_required (D : Deps) (c : Criteria) :
  (SortBy (Ordering c) <> [] -> Regex (Ordering c) = "" ->
     (exists err, New D c = (None, Some err)) /\
     (Include c <> [] ->
      finder_Validate D (Include c) = None ->
      finder_Validate D (Exclude c) = None ->
      New D c =
        (None, Some (errorString "'regex' must be specified when 'sort_by' is specified")))) /\
  (SortBy (Ordering c) = [] -> Include c <> [] ->
   finder_Validate D (Include c) = None ->
   finder_Validate D (Exclude c) = None ->
   exists m, New D c = (Some m, None)).
Proof.
  split.
  - intros Hs Hr. split.
    + destruct (New_total D c) as [[m H]|H]; [|exact H].
      destruct (New_ranked D c m H Hs) as (H0 & _). contradiction.
    + intros Hi Hvi Hve. unfold New.
      now rewrite (length_nonzero _ Hi), Hvi, Hve, (length_nonzero _ Hs), Hr.
  - intros Hs Hi Hvi Hve. rewrite (New_unranked D c Hs Hi Hvi Hve). eauto.
Qed.

Lemma New_regex_required_witness :
  New Fixture.deps
      (Fixture.logs {| Regex := ""; TopN := 0; SortBy := [Fixture.by_name] |})
    = (None, Some (errorString "'regex' must be specified when 'sort_by' is specified")) /\
  exists m,
    New Fixture.deps (Fixture.logs {| Regex := "app"; TopN := 0; SortBy := [] |})
      = (Some m, None).
Proof.
  split.
  - apply (New_regex_required Fixture.deps
             (Fixture.logs {| Regex := ""; TopN := 0; SortBy := [Fixture.by_name] |}));
      [discriminate | reflexivity | discriminate | reflexivity | reflexivity].
  - apply (New_regex_required Fixture.deps
             (Fixture.logs {| Regex := "app"; TopN := 0; SortBy := [] |}));
      [reflexivity | discriminate | reflexivity | reflexivity].
Defined.

(** C5 fails as stated: a Criteria with a regex and an empty sort_by is
    accepted by [New]. *)
Lemma New_regex_required_counterexample :
  Regex (Ordering (Fixture.logs {| Regex := "app"; TopN := 0; SortBy := [] |})) <> "" /\
  SortBy (Ordering (Fixture.logs {| Regex := "app"; TopN := 0; SortBy := [] |})) = [] /\
  New Fixture.deps (Fixture.logs {| Regex := "app"; TopN := 0; SortBy := [] |})
    = (Some Fixture.unranked, None).
Proof. split; [discriminate|]. split; reflexivity. Qed.

(** C6.  For every Criteria with a non-empty sort_by, top_n = 0 (which is
    also what a top_n left unset is, the zero value of the field) builds the
    matcher that the default top_n = 1 builds: the resolved [topN] is 1, and
    [MatchFiles] with a non-empty ranked result returns exactly one path,
    the first of the ranking. *)
Theorem New_top_n_zero (D : Deps) (c : Criteria) :
  SortBy (Ordering c) <> [] -> TopN (Ordering c) = 0 ->
  New D c = New D (withTopN c defaultOrderingCriteriaTopN) /\
  forall m, New D c = (Some m, None) ->
    topN m = 1 /\
    forall files ranked ferr rerr,
      finder_FindFiles D (include m) (exclude m) = (files, ferr) -> files <> [] ->
      filter_Filter D files (regex m) (filterOpts m) = (ranked, rerr) ->
      ranked <> [] ->
      exists first,
        hd_error ranked = Some first /\
        MatchFiles D m = Returned [first] (errors_Join [rerr; errors_Join [None; ferr]]).
Proof.
  intros Hs H0. split.
  - unfold New, withTopN. cbn [Include Exclude Ordering Regex TopN SortBy].
    rewrite H0. reflexivity.
  - intros m HN. destruct (New_ranked_topN D c m HN Hs) as (Ht & Hn & Ho).
    assert (H1 : topN m = 1) by (rewrite Ht; unfold resolvedTopN; now rewrite H0).
    split; [exact H1|].
    intros files ranked ferr rerr HF Hf HR Hr.
    destruct ranked as [|first rest]; [now elim Hr|].
    exists first. split; [reflexivity|].
    rewrite (MatchFiles_ranked D m files (first :: rest) ferr rerr Ho ltac:(lia) HF Hf HR).
    now rewrite H1.
Qed.

Lemma New_top_n_zero_witness :
  New Fixture.deps
      (Fixture.logs {| Regex := "app"; TopN := 0; SortBy := [Fixture.by_name] |})
    = (Some (Fixture.ranked "app" 1), None) /\
  exists first,
    hd_error Fixture.sorted = Some first /\
    MatchFiles Fixture.deps (Fixture.ranked "app" 1) =
      Returned [first] (errors_Join [None; errors_Join [None; None]]).
Proof.
  split; [reflexivity|].
  apply (New_top_n_zero Fixture.deps
           (Fixture.logs {| Regex := "app"; TopN := 0; SortBy := [Fixture.by_name] |})
           ltac:(discriminate) eq_refl)
    with (files := Fixture.found);
    [reflexivity | reflexivity | discriminate | reflexivity | discriminate].
Defined.

(** C7.  For every Criteria, [New] fails with an error and returns no
    Matcher when include is empty, when sort_by is non-empty but regex is
    empty, or when an entry of sort_by has a sort_type that is none of
    numeric, alphabetical and timestamp. *)
Theorem New_rejects (D : Deps) (c : Criteria) :
  Include c = [] \/
  (SortBy (Ordering c) <> [] /\ Regex (Ordering c) = "") \/
  (exists sc, In sc (SortBy (Ordering c)) /\ unrecognized (SortType sc)) ->
  exists err, New D c = (None, Some err).
Proof.
  intros H. destruct (New_total D c) as [[m HN]|HN]; [exfalso | exact HN].
  destruct H as [Hi | [[Hs Hr] | (sc & Hin & Hun)]].
  - revert HN. unfold New. rewrite Hi. discriminate.
  - destruct (New_ranked D c m HN Hs) as (Hr' & _). contradiction.
  - assert (Hs : SortBy (Ordering c) <> []) by (intros E; rewrite E in Hin; exact Hin).
    destruct (New_ranked D c m HN Hs) as (_ & _ & re & opts & _ & Ho & _).
    destruct (sortOptions_unrecognized D _ sc Hin Hun []) as [err He].
    congruence.
Qed.

Lemma New_rejects_witness :
  (exists err,
     New Fixture.deps {| Include := []; Exclude := [];
                         Ordering := {| Regex := ""; TopN := 0; SortBy := [] |} |}
       = (None, Some err)) /\
  (exists err,
     New Fixture.deps
         (Fixture.logs {| Regex := ""; TopN := 0; SortBy := [Fixture.by_name] |})
       = (None, Some err)) /\
  (exists err,
     New Fixture.deps
         (Fixture.logs {| Regex := "app"; TopN := 0;
                          SortBy := [Fixture.by_name;
                                     {| SortType := "size"; RegexKey := "name";
                                        Ascending := true; Layout := "";
                                        Location := "" |}] |})
       = (None, Some err)).
Proof.
  split; [|split].
  - apply New_rejects. left. reflexivity.
  - apply New_rejects. right. left. split; [discriminate | reflexivity].
  - apply New_rejects. right. right.
    exists {| SortType := "size"; RegexKey := "name"; Ascending := true;
              Layout := ""; Location := "" |}.
    split; [right; left; reflexivity|].
    repeat split; discriminate.
Defined.

(** C8.  For every matcher that [New] built without ordering, [MatchFiles]
    returns the non-empty list of the Finder as it is, the Finder being
    called on the configured patterns, and the returned error is the
    Finder's error joined alone: it has the Finder's message, and is nil
    exactly when the Finder reported nothing. *)
Theorem MatchFiles_verbatim (D : Deps) (c : Criteria) (m : Matcher D)
    (files : list string) (ferr : option error) :
  New D c = (Some m, None) -> SortBy (Ordering c) = [] ->
  finder_FindFiles D (include m) (exclude m) = (files, ferr) -> files <> [] ->
  include m = Include c /\ exclude m = Exclude c /\
  MatchFiles D m = Returned files (errors_Join [None; ferr]) /\
  message (errors_Join [None; ferr]) = message ferr /\
  (errors_Join [None; ferr] = None <-> ferr = None).
Proof.
  intros HN Hs HF Hf.
  destruct (New_unranked_inv D c m HN Hs) as (_ & ->).
  split; [reflexivity|]. split; [reflexivity|]. split; [|split].
  - now apply MatchFiles_unranked.
  - apply message_Join_scan.
  - rewrite Join_scan. destruct ferr; split; intros H; try discriminate; reflexivity.
Qed.

Lemma MatchFiles_verbatim_witness :
  MatchFiles Fixture.deps Fixture.unranked = Returned Fixture.found None.
Proof.
  apply (MatchFiles_verbatim Fixture.deps
           (Fixture.logs {| Regex := ""; TopN := 0; SortBy := [] |})
           Fixture.unranked Fixture.found None);
    [reflexivity | reflexivity | reflexivity | discriminate].
Defined.

(** C9.  For every Criteria with an empty sort_by, a non-empty include and
    include and exclude patterns that the validator accepts, [New] succeeds
    whatever regex and top_n are: the matcher holds the two pattern lists,
    no compiled regex and no filter option.  Its [MatchFiles] returns the
    list of the Finder whole, whatever the Ranking Filter would do. *)
Theorem New_ignores_ordering (D : Deps) (c : Criteria) :
  SortBy (Ordering c) = [] -> Include c <> [] ->
  finder_Validate D (Include c) = None ->
  finder_Validate D (Exclude c) = None ->
  let m := {| include := Include c; exclude := Exclude c;
              regex := None; topN := 0; filterOpts := [] |} in
  New D c = (Some m, None) /\
  (forall r n, New D {| Include := Include c; Exclude := Exclude c;
                        Ordering := {| Regex := r; TopN := n; SortBy := [] |} |}
               = (Some m, None)) /\
  exists err,
    MatchFiles D m = Returned (fst (finder_FindFiles D (Include c) (Exclude c))) err.
Proof.
  intros Hs Hi Hvi Hve m. split; [|split].
  - now apply New_unranked.
  - intros r n. now apply New_unranked.
  - destruct (finder_FindFiles D (Include c) (Exclude c)) as [files ferr] eqn:HF.
    destruct files as [|f files].
    + rewrite (MatchFiles_none D m ferr HF). eauto.
    + rewrite (MatchFiles_unranked D m (f :: files) ferr eq_refl HF); [eauto | discriminate].
Qed.

Lemma New_ignores_ordering_witness :
  New Fixture.deps (Fixture.logs {| Regex := "("; TopN := -5; SortBy := [] |})
    = (Some Fixture.unranked, None) /\
  (forall r n, New Fixture.deps (Fixture.logs {| Regex := r; TopN := n; SortBy := [] |})
               = (Some Fixture.unranked, None)) /\
  exists err,
    MatchFiles Fixture.deps Fixture.unranked =
      Returned (fst (finder_FindFiles Fixture.deps ["/logs/*.log"] [])) err.
Proof.
  apply (New_ignores_ordering Fixture.deps
           (Fixture.logs {| Regex := "("; TopN := -5; SortBy := [] |}));
    [reflexivity | discriminate | reflexivity | reflexivity].
Defined.

(** C10.  For every matcher that [New] built with ranking configured, the
    resolved [topN] is at least 1, so that whenever the Ranking Filter
    retains at least one file [MatchFiles] returns at least one path. *)
Theorem MatchFiles_keeps_one (D : Deps) (c : Criteria) (m : Matcher D) :
  New D c = (Some m, None) -> SortBy (Ordering c) <> [] ->
  1 <= topN m /\
  forall files ranked ferr rerr,
    finder_FindFiles D (include m) (exclude m) = (files, ferr) -> files <> [] ->
    filter_Filter D files (regex m) (filterOpts m) = (ranked, rerr) ->
    ranked <> [] ->
    exists first rest err,
      MatchFiles D m = Returned (first :: rest) err /\
      hd_error ranked = Some first.
Proof.
  intros HN Hs. destruct (New_ranked_topN D c m HN Hs) as (_ & Hn & Ho).
  split; [exact Hn|].
  intros files ranked ferr rerr HF Hf HR Hr.
  rewrite (MatchFiles_ranked D m files ranked ferr rerr Ho ltac:(lia) HF Hf HR).
  destruct ranked as [|first rest]; [now elim Hr|].
  destruct (Z.to_nat (topN m)) eqn:E; [lia|].
  cbn [firstn]. eauto.
Qed.

Lemma MatchFiles_keeps_one_witness :
  1 <= topN (Fixture.ranked "app" 2) /\
  exists first rest err,
    MatchFiles Fixture.deps (Fixture.ranked "app" 2) = Returned (first :: rest) err /\
    hd_error Fixture.sorted = Some first.
Proof.
  destruct (MatchFiles_keeps_one Fixture.deps
              (Fixture.logs {| Regex := "app"; TopN := 2; SortBy := [Fixture.by_name] |})
              (Fixture.ranked "app" 2) eq_refl ltac:(discriminate)) as [H1 H2].
  split; [exact H1|].
  apply (H2 Fixture.found Fixture.sorted None None);
    [reflexivity | discriminate | reflexivity | discriminate].
Defined.

(** ** Further properties of New *)

Lemma sortOptions_Forall2 (D : Deps) (sortBy : list Sort) :
  forall acc opts,
    sortOptions D sortBy acc = inl opts <->
    exists new, opts = (acc ++ new)%list /\
                Forall2 (fun sc f => sortOption D sc = inl f) sortBy new.
Proof.
  induction sortBy as [|sc rest IH]; intros acc opts; simpl.
  - split.
    + intros [= <-]. exists []. split; [now rewrite app_nil_r | constructor].
    + intros (new & -> & H). inversion H. now rewrite app_nil_r.
  - destruct (sortOption D sc) as [f|e] eqn:E.
    + rewrite IH. split.
      * intros (new & -> & H). exists (f :: new). split.
        -- now rewrite <- app_assoc.
        -- now constructor.
      * intros (new & -> & H). inversion H as [|? g ? new' Hg H']; subst.
        assert (g = f) by congruence. subst g.
        exists new'. split; [now rewrite <- app_assoc | assumption].
    + split; [discriminate|].
      intros (new & _ & H). inversion H; congruence.
Qed.

Lemma sortOptions_error (D : Deps) (sortBy : list Sort) :
  forall acc err,
    sortOptions D sortBy acc = inr err ->
    exists good sc rest,
      sortBy = (good ++ sc :: rest)%list /\
      Forall (fun s => exists f, sortOption D s = inl f) good /\
      sortOption D sc = inr err.
Proof.
  induction sortBy as [|s l IH]; intros acc err; simpl; [discriminate|].
  destruct (sortOption D s) as [f|e] eqn:E.
  - intros H. destruct (IH _ _ H) as (good & sc & rest & -> & Hg & Hsc).
    exists (s :: good), sc, rest. repeat split; eauto.
  - intros [= <-]. exists [], s, l. repeat split; auto.
Qed.

Lemma sortOptions_first_error (D : Deps) (good rest : list Sort) (sc : Sort)
      (err : error) :
  Forall (fun s => exists f, sortOption D s = inl f) good ->
  sortOption D sc = inr err ->
  forall acc, sortOptions D (good ++ sc :: rest)%list acc = inr err.
Proof.
  intros Hg Hsc. induction Hg as [|s good [f Hf] _ IH]; intros acc; simpl.
  - now rewrite Hsc.
  - rewrite Hf. apply IH.
Qed.

Lemma New_shape (D : Deps) (c : Criteria) (m : Matcher D) :
  New D c = (Some m, None) ->
  include m = Include c /\ exclude m = Exclude c /\
  0 <= topN m /\
  length (filterOpts m) = length (SortBy (Ordering c)) /\
  (filterOpts m = [] <-> SortBy (Ordering c) = []) /\
  (regex m = None <-> SortBy (Ordering c) = []) /\
  (topN m = 0 <-> SortBy (Ordering c) = []).
Proof.
  intros HN. destruct (SortBy (Ordering c)) as [|sc rest] eqn:Hs.
  - destruct (New_unranked_inv D c m HN Hs) as (_ & ->).
    cbn [include exclude regex topN filterOpts length]. repeat split; auto; lia.
  - assert (Hne : SortBy (Ordering c) <> []) by now rewrite Hs.
    destruct (New_ranked_topN D c m HN Hne) as (_ & Hn & Hopts).
    destruct (New_ranked D c m HN Hne) as (_ & _ & re & opts & _ & Ho & ->).
    cbn [include exclude regex topN filterOpts] in *.
    apply sortOptions_length in Ho. rewrite Hs in Ho. cbn [length Nat.add] in Ho.
    split; [reflexivity|]. split; [reflexivity|]. split; [lia|].
    split; [exact Ho|].
    repeat split; intros E; try contradiction; try discriminate; lia.
Qed.

(** X1.  [New] returns a matcher exactly when include is non-empty, the
    validator accepts include and exclude, and either sort_by is empty (the
    matcher then holds the two pattern lists and nothing else) or the regex
    is non-empty, top_n is not negative, the regex compiles and every entry
    of sort_by builds its option; the matcher then holds the compiled regex,
    the resolved top_n and one option per entry, in the order of sort_by. *)
Theorem New_succeeds_iff (D : Deps) (c : Criteria) (m : Matcher D) :
  New D c = (Some m, None) <->
  Include c <> [] /\
  finder_Validate D (Include c) = None /\
  finder_Validate D (Exclude c) = None /\
  ((SortBy (Ordering c) = [] /\
    m = {| include := Include c; exclude := Exclude c;
           regex := None; topN := 0; filterOpts := [] |}) \/
   (SortBy (Ordering c) <> [] /\ Regex (Ordering c) <> "" /\
    0 <= TopN (Ordering c) /\
    exists re opts,
      regexp_Compile D (Regex (Ordering c)) = inl re /\
      Forall2 (fun sc f => sortOption D sc = inl f) (SortBy (Ordering c)) opts /\
      m = {| include := Include c; exclude := Exclude c; regex := Some re;
             topN := resolvedTopN c; filterOpts := opts |})).
Proof.
  split.
  - intros HN.
    assert (Hpat : Include c <> [] /\ finder_Validate D (Include c) = None /\
                   finder_Validate D (Exclude c) = None).
    { revert HN. unfold New. destruct (Include c); [discriminate|].
      cbn [length Nat.eqb].
      destruct (finder_Validate D (s :: l)); [discriminate|].
      destruct (finder_Validate D (Exclude c)); [discriminate|].
      intros _. repeat split. discriminate. }
    destruct Hpat as (Hi & Hvi & Hve). repeat (split; [assumption|]).
    destruct (SortBy (Ordering c)) as [|sc rest] eqn:Hs.
    + left. split; [reflexivity|]. now apply (New_unranked_inv D c m HN).
    + right. rewrite <- Hs.
      assert (Hne : SortBy (Ordering c) <> []) by now rewrite Hs.
      destruct (New_ranked D c m HN Hne) as (Hr & Hn & re & opts & Hc & Ho & Hm).
      repeat (split; [assumption|]). exists re, opts.
      split; [assumption|]. split; [|assumption].
      apply sortOptions_Forall2 in Ho. destruct Ho as (new & -> & H). exact H.
  - intros (Hi & Hvi & Hve & [[Hs ->] | (Hs & Hr & Hn & re & opts & Hc & Ho & ->)]).
    + now apply New_unranked.
    + unfold New.
      rewrite (length_nonzero _ Hi), Hvi, Hve, (length_nonzero _ Hs).
      apply String.eqb_neq in Hr. rewrite Hr.
      destruct (Z.ltb_spec (TopN (Ordering c)) 0); [lia|].
      rewrite Hc.
      assert (Hso : sortOptions D (SortBy (Ordering c)) [] = inl opts).
      { apply sortOptions_Forall2. exists opts. now split. }
      now rewrite Hso.
Qed.

(** X2.  Every matcher that [New] returns holds the include and exclude
    lists of the Criteria, a non-empty include, patterns the validator
    accepts, a [topN] that is not negative and one filter option per entry
    of sort_by; it has no filter option, no regex and [topN] 0 exactly when
    sort_by is empty. *)
Theorem New_matcher_invariant (D : Deps) (c : Criteria) (m : Matcher D) :
  New D c = (Some m, None) ->
  include m = Include c /\ exclude m = Exclude c /\ include m <> [] /\
  finder_Validate D (include m) = None /\
  finder_Validate D (exclude m) = None /\
  0 <= topN m /\
  length (filterOpts m) = length (SortBy (Ordering c)) /\
  (filterOpts m = [] <-> SortBy (Ordering c) = []) /\
  (regex m = None <-> SortBy (Ordering c) = []) /\
  (topN m = 0 <-> SortBy (Ordering c) = []).
Proof.
  intros HN.
  destruct (New_shape D c m HN) as (Hi & He & Hn & Hl & Ho & Hr & Ht).
  assert (Hpat : Include c <> [] /\ finder_Validate D (Include c) = None /\
                 finder_Validate D (Exclude c) = None).
  { revert HN. unfold New. destruct (Include c); [discriminate|].
    cbn [length Nat.eqb].
    destruct (finder_Validate D (s :: l)); [discriminate|].
    destruct (finder_Validate D (Exclude c)); [discriminate|].
    intros _. repeat split. discriminate. }
  destruct Hpat as (Hne & Hvi & Hve). rewrite Hi, He.
  repeat (split; [assumption || reflexivity|]). exact Ht.
Qed.

Lemma New_matcher_invariant_witness :
  let m := Fixture.ranked "app" 2 in
  include m = ["/logs/*.log"] /\ exclude m = [] /\ include m <> [] /\
  Fixture.Validate (include m) = None /\ Fixture.Validate (exclude m) = None /\
  0 <= topN m /\ length (filterOpts m) = 1%nat /\
  (filterOpts m = [] <-> [Fixture.by_name] = []) /\
  (regex m = None <-> [Fixture.by_name] = []) /\
  (topN m = 0 <-> [Fixture.by_name] = []).
Proof.
  apply (New_matcher_invariant Fixture.deps
           (Fixture.logs {| Regex := "app"; TopN := 2; SortBy := [Fixture.by_name] |})).
  reflexivity.
Defined.

(** X3.  When the checks on the patterns, the regex and top_n pass, the
    error of [New] is the error of the first entry of sort_by that does not
    build its option: the entries after it are not looked at. *)
Theorem New_first_failing_entry (D : Deps) (c : Criteria)
    (good rest : list Sort) (sc : Sort) (re : Regexp D) (err : error) :
  Include c <> [] ->
  finder_Validate D (Include c) = None ->
  finder_Validate D (Exclude c) = None ->
  Regex (Ordering c) <> "" -> 0 <= TopN (Ordering c) ->
  regexp_Compile D (Regex (Ordering c)) = inl re ->
  SortBy (Ordering c) = (good ++ sc :: rest)%list ->
  Forall (fun s => exists f, sortOption D s = inl f) good ->
  sortOption D sc = inr err ->
  New D c = (None, Some err).
Proof.
  intros Hi Hvi Hve Hr Hn Hc Hs Hg Hsc. unfold New.
  assert (Hne : SortBy (Ordering c) <> []) by (rewrite Hs; now destruct good).
  rewrite (length_nonzero _ Hi), Hvi, Hve, (length_nonzero _ Hne).
  apply String.eqb_neq in Hr. rewrite Hr.
  destruct (Z.ltb_spec (TopN (Ordering c)) 0); [lia|].
  rewrite Hc, Hs, (sortOptions_first_error D good rest sc err Hg Hsc).
  reflexivity.
Qed.

Lemma New_first_failing_entry_witness :
  New Fixture.deps
      (Fixture.logs
         {| Regex := "app"; TopN := 0;
            SortBy := [Fixture.by_name;
                       {| SortType := "numeric"; RegexKey := ""; Ascending := true;
                          Layout := ""; Location := "" |};
                       {| SortType := "size"; RegexKey := "name"; Ascending := true;
                          Layout := ""; Location := "" |}] |})
    = (None, Some (wrapError "numeric sort: "
                             (errorString "regex key must be specified"))).
Proof.
  apply (New_first_failing_entry Fixture.deps _ [Fixture.by_name]
           [{| SortType := "size"; RegexKey := "name"; Ascending := true;
               Layout := ""; Location := "" |}]
           {| SortType := "numeric"; RegexKey := ""; Ascending := true;
              Layout := ""; Location := "" |}
           "app");
    [discriminate | reflexivity | reflexivity | discriminate | discriminate
    | reflexivity | reflexivity | | reflexivity].
  constructor; [exists true; reflexivity | constructor].
Defined.

Ltac pick_prefix :=
  unfold newErrorPrefixes;
  repeat first
    [ apply Exists_cons_hd; cbn [Error]; solve [apply prefix_append | reflexivity]
    | apply Exists_cons_tl ].

Lemma sortOption_error_prefix (D : Deps) (sc : Sort) (err : error) :
  sortOption D sc = inr err ->
  Exists (fun p => String.prefix p (Error err) = true) newErrorPrefixes.
Proof.
  unfold sortOption.
  destruct (String.eqb (SortType sc) sortTypeNumeric).
  { destruct (filter_SortNumeric D _ _); intros [= <-]. pick_prefix. }
  destruct (String.eqb (SortType sc) sortTypeAlphabetical).
  { destruct (filter_SortAlphabetical D _ _); intros [= <-]. pick_prefix. }
  destruct (String.eqb (SortType sc) sortTypeTimestamp).
  { destruct (filter_SortTemporal D _ _ _ _); intros [= <-]. pick_prefix. }
  intros [= <-]. pick_prefix.
Qed.

(** X4.  The message of every error that [New] returns starts with one of
    ten texts: one of its own four messages, or the prefix that names the
    failed step ("include: ", "exclude: ", "compile regex: ",
    "numeric sort: ", "alphabetical sort: ", "timestamp sort: ") followed by
    the message of the collaborator's error. *)
Theorem New_error_prefix (D : Deps) (c : Criteria) (err : error) :
  New D c = (None, Some err) ->
  Exists (fun p => String.prefix p (Error err) = true) newErrorPrefixes.
Proof.
  unfold New.
  destruct (length (Include c) =? 0)%nat; [intros [= <-]; pick_prefix|].
  destruct (finder_Validate D (Include c)); [intros [= <-]; pick_prefix|].
  destruct (finder_Validate D (Exclude c)); [intros [= <-]; pick_prefix|].
  destruct (length (SortBy (Ordering c)) =? 0)%nat; [discriminate|].
  destruct (String.eqb (Regex (Ordering c)) ""); [intros [= <-]; pick_prefix|].
  destruct (TopN (Ordering c) <? 0); [intros [= <-]; pick_prefix|].
  destruct (regexp_Compile D (Regex (Ordering c))); [|intros [= <-]; pick_prefix].
  destruct (sortOptions D (SortBy (Ordering c)) []) eqn:Ho; [discriminate|].
  intros [= <-].
  destruct (sortOptions_error D _ _ _ Ho) as (good & sc & rest & _ & _ & Hsc).
  exact (sortOption_error_prefix D sc e Hsc).
Qed.

Lemma New_error_prefix_witness :
  Exists (fun p =>
            String.prefix p
              (Error (wrapError "compile regex: "
                        (errorString "error parsing regexp: missing closing ): `(`")))
            = true)
         newErrorPrefixes.
Proof.
  apply (New_error_prefix Fixture.deps
           (Fixture.logs {| Regex := "("; TopN := 0; SortBy := [Fixture.by_name] |})).
  reflexivity.
Defined.

Lemma sortOption_sameOrder (D : Deps) (a b : Sort) :
  sameOrder a b -> sortOption D a = sortOption D b.
Proof.
  destruct a as [ta ka aa la za], b as [tb kb ab lb zb].
  unfold sameOrder, sortOption. cbn [SortType RegexKey Ascending Layout Location].
  intros (<- & <- & <- & H).
  destruct (String.eqb ta sortTypeNumeric); [reflexivity|].
  destruct (String.eqb ta sortTypeAlphabetical); [reflexivity|].
  destruct (String.eqb_spec ta sortTypeTimestamp) as [E|_]; [|reflexivity].
  destruct (H E) as [<- <-]. reflexivity.
Qed.

Lemma sortOptions_sameOrder (D : Deps) (l l' : list Sort) :
  Forall2 sameOrder l l' ->
  forall acc, sortOptions D l acc = sortOptions D l' acc.
Proof.
  induction 1 as [|a b l l' Hab _ IH]; intros acc; simpl; [reflexivity|].
  rewrite (sortOption_sameOrder D a b Hab).
  destruct (sortOption D b); [apply IH | reflexivity].
Qed.

(** X5.  The layout and the location of a sort_by entry are read for the
    timestamp sort only: two Criteria that differ in nothing but the layout
    or location of entries of another sort type get the same result from
    [New]. *)
Theorem New_timestamp_only_fields (D : Deps) (c c' : Criteria) :
  Include c = Include c' -> Exclude c = Exclude c' ->
  Regex (Ordering c) = Regex (Ordering c') ->
  TopN (Ordering c) = TopN (Ordering c') ->
  Forall2 sameOrder (SortBy (Ordering c)) (SortBy (Ordering c')) ->
  New D c = New D c'.
Proof.
  intros Hi He Hr Hn Hs. unfold New.
  rewrite <- Hi, <- He, <- Hr, <- Hn, <- (Forall2_length Hs),
    <- (sortOptions_sameOrder D _ _ Hs).
  reflexivity.
Qed.

Lemma New_timestamp_only_fields_witness :
  New Fixture.deps
      (Fixture.logs {| Regex := "app"; TopN := 2; SortBy := [Fixture.by_name] |})
  = New Fixture.deps
      (Fixture.logs
         {| Regex := "app"; TopN := 2;
            SortBy := [{| SortType := "alphabetical"; RegexKey := "name";
                          Ascending := true; Layout := "2006-01-02";
                          Location := "UTC" |}] |}).
Proof.
  apply New_timestamp_only_fields; try reflexivity.
  constructor; [|constructor].
  repeat split; discriminate.
Defined.

(** ** Further properties of MatchFiles *)

Lemma append_assoc (a b c : string) : (a ++ b) ++ c = a ++ b ++ c.
Proof. induction a as [|x a IH]; simpl; [reflexivity | now rewrite IH]. Qed.

(** The five ways through [MatchFiles], for any matcher. *)
Lemma MatchFiles_cases (D : Deps) (m : Matcher D) (files ranked : list string)
      (ferr rerr : option error) :
  finder_FindFiles D (include m) (exclude m) = (files, ferr) ->
  filter_Filter D files (regex m) (filterOpts m) = (ranked, rerr) ->
  MatchFiles D m =
  match files, filterOpts m, ranked with
  | [], _, _ =>
      Returned [] (errors_Join [Some (errorString noFilesMatch); errors_Join [None; ferr]])
  | _ :: _, [], _ => Returned files (errors_Join [None; ferr])
  | _ :: _, _ :: _, [] => Returned [] (errors_Join [rerr; errors_Join [None; ferr]])
  | _ :: _, _ :: _, _ :: _ =>
      if topN m <? 0 then Panicked
      else Returned (firstn (Z.to_nat (topN m)) ranked)
                    (errors_Join [rerr; errors_Join [None; ferr]])
  end.
Proof.
  intros HF HR. destruct files as [|f files].
  - now apply MatchFiles_none.
  - destruct (filterOpts m) as [|o opts] eqn:Ho.
    + apply MatchFiles_unranked; [assumption | assumption | discriminate].
    + destruct ranked as [|p ranked].
      * unfold MatchFiles. rewrite HF, Ho, HR. now destruct ferr.
      * destruct (Z.ltb_spec (topN m) 0) as [Hn|Hn].
        -- unfold MatchFiles. rewrite HF, Ho, HR. cbn [length Nat.eqb].
           destruct (Z.leb_spec (Z.of_nat (S (length ranked))) (topN m)); [lia|].
           unfold slice_to. destruct (Z.ltb_spec (topN m) 0); [reflexivity | lia].
        -- apply (MatchFiles_ranked D m (f :: files) (p :: ranked) ferr rerr);
             rewrite ?Ho; try assumption; discriminate.
Qed.



(** X7.  For a matcher that [New] returned, [MatchFiles] returns a nil
    error exactly when the Finder returned at least one file and no error
    and, if sort_by is not empty, the Ranking Filter returned no error
    either. *)
Theorem MatchFiles_no_error_iff (D : Deps) (c : Criteria) (m : Matcher D)
    (files ranked : list string) (ferr rerr : option error) :
  New D c = (Some m, None) ->
  finder_FindFiles D (include m) (exclude m) = (files, ferr) ->
  filter_Filter D files (regex m) (filterOpts m) = (ranked, rerr) ->
  ((exists paths, MatchFiles D m = Returned paths None) <->
   files <> [] /\ ferr = None /\ (SortBy (Ordering c) = [] \/ rerr = None)).
Proof.
  intros HN HF HR.
  destruct (New_shape D c m HN) as (_ & _ & Hn & _ & Ho & _ & _).
  rewrite (MatchFiles_cases D m files ranked ferr rerr HF HR).
  assert (Hneg : (topN m <? 0) = false) by (apply Z.ltb_ge; exact Hn).
  rewrite Hneg.
  destruct files as [|f files].
  { split; [intros [paths H]; discriminate | intros (H & _); now elim H]. }
  destruct (filterOpts m) as [|o opts] eqn:Hopts.
  { rewrite Join_scan. split.
    - intros [paths H]. destruct ferr; [discriminate|].
      repeat split; [discriminate | left; now apply Ho].
    - intros (_ & -> & _). eauto. }
  assert (Hs : SortBy (Ordering c) <> []) by (intros E; apply Ho in E; discriminate).
  assert (Hj : forall paths,
             (Returned paths (errors_Join [rerr; errors_Join [None; ferr]])
              = Returned paths None) <-> rerr = None /\ ferr = None).
  { intros paths. split.
    - intros [= H]. apply Join2_nil in H. rewrite Join_scan in H.
      destruct H as [-> H]. now destruct ferr.
    - intros [-> ->]. reflexivity. }
  destruct ranked as [|p ranked]; split.
  - intros [paths H]. injection H as <- H. apply Join2_nil in H.
    rewrite Join_scan in H. destruct H as [-> H].
    destruct ferr; [discriminate|]. repeat split; [discriminate | now right].
  - intros (_ & -> & [E | ->]); [contradiction | eauto].
  - intros [paths H]. injection H as <- H. apply Join2_nil in H.
    rewrite Join_scan in H. destruct H as [-> H].
    destruct ferr; [discriminate|]. repeat split; [discriminate | now right].
  - intros (_ & -> & [E | ->]); [contradiction | eauto].
Qed.

Lemma MatchFiles_no_error_iff_witness :
  (exists paths, MatchFiles Fixture.deps (Fixture.ranked "app" 2) = Returned paths None)
  <-> Fixture.found <> [] /\ @None error = None /\
      ([Fixture.by_name] = [] \/ @None error = None).
Proof.
  apply (MatchFiles_no_error_iff Fixture.deps
           (Fixture.logs {| Regex := "app"; TopN := 2; SortBy := [Fixture.by_name] |})
           (Fixture.ranked "app" 2) Fixture.found Fixture.sorted None None);
    reflexivity.
Defined.

(** X8.  An error of the Finder is never lost: for every matcher, whenever
    the Finder reports an error and [MatchFiles] returns, the returned error
    is not nil and its message ends with the message of the Finder's error. *)
Theorem MatchFiles_keeps_finder_error (D : Deps) (m : Matcher D)
    (files paths : list string) (e : error) (err : option error) :
  finder_FindFiles D (include m) (exclude m) = (files, Some e) ->
  MatchFiles D m = Returned paths err ->
  err <> None /\
  (exists before, message err = before ++ Error e) /\
  strings_Contains (message err) (Error e) = true.
Proof.
  intros HF HM.
  destruct (filter_Filter D files (regex m) (filterOpts m)) as [ranked rerr] eqn:HR.
  rewrite (MatchFiles_cases D m files ranked (Some e) rerr HF HR) in HM.
  assert (Hscan : forall x : option error,
             let r := errors_Join [x; errors_Join [None; Some e]] in
             r <> None /\ (exists before, message r = before ++ Error e) /\
             strings_Contains (message r) (Error e) = true).
  { intros x r. unfold r. split; [now destruct x|].
    rewrite message_Join2, Join_scan. cbn [message Error].
    rewrite append_empty_r. destruct x as [x|].
    - split.
      + exists (Error x ++ newline). symmetry. apply append_assoc.
      + apply Contains_skip, Contains_skip, Contains_self.
    - split; [now exists "" | apply Contains_self]. }
  assert (Hplain : let r := errors_Join [None; Some e] in
                   r <> None /\ (exists before, message r = before ++ Error e) /\
                   strings_Contains (message r) (Error e) = true).
  { cbn [errors_Join non_nil message Error]. rewrite append_empty_r.
    split; [discriminate|]. split; [now exists "" | apply Contains_self]. }
  destruct files, (filterOpts m), ranked; try destruct (topN m <? 0);
    try discriminate; injection HM as <- <-;
    first [apply Hscan | exact Hplain].
Qed.

Lemma MatchFiles_keeps_finder_error_witness :
  let err :=
    Some (joinError [errorString noFilesMatch;
                     joinError [joinError [Fixture.badPattern]]]) in
  err <> None /\
  (exists before, message err = before ++ Error (joinError [Fixture.badPattern])) /\
  strings_Contains (message err) (Error (joinError [Fixture.badPattern])) = true.
Proof.
  apply (MatchFiles_keeps_finder_error Fixture.deps
           (@mkMatcher Fixture.deps ["/logs/[*.log"] [] None 0 []) [] []);
    reflexivity.
Defined.

(** X9.  For a matcher that [New] returned, [MatchFiles] returns, and its
    list of paths is empty exactly when the Finder returned no file or, with
    sort_by not empty, the Ranking Filter retained none. *)
Theorem MatchFiles_empty_iff (D : Deps) (c : Criteria) (m : Matcher D)
    (files ranked : list string) (ferr rerr : option error) :
  New D c = (Some m, None) ->
  finder_FindFiles D (include m) (exclude m) = (files, ferr) ->
  filter_Filter D files (regex m) (filterOpts m) = (ranked, rerr) ->
  exists paths err,
    MatchFiles D m = Returned paths err /\
    (paths = [] <-> files = [] \/ (SortBy (Ordering c) <> [] /\ ranked = [])).
Proof.
  intros HN HF HR.
  destruct (New_shape D c m HN) as (_ & _ & Hn & _ & Ho & _ & Ht).
  rewrite (MatchFiles_cases D m files ranked ferr rerr HF HR).
  destruct files as [|f files]; [do 2 eexists; split; [reflexivity|]; tauto|].
  destruct (filterOpts m) as [|o opts] eqn:Hopts.
  - do 2 eexists. split; [reflexivity|]. split; [discriminate|].
    intros [E | [Hs _]]; [discriminate|]. elim Hs. now apply Ho.
  - assert (Hs : SortBy (Ordering c) <> []) by (intros E; apply Ho in E; discriminate).
    destruct ranked as [|p ranked].
    + do 2 eexists. split; [reflexivity|]. split; auto.
    + destruct (Z.ltb_spec (topN m) 0); [lia|].
      assert (H1 : 1 <= topN m).
      { destruct (Z.eq_dec (topN m) 0) as [E|E]; [apply Ht in E; contradiction | lia]. }
      destruct (Z.to_nat (topN m)) eqn:E; [lia|]. cbn [firstn].
      do 2 eexists. split; [reflexivity|]. split; [discriminate|].
      intros [E' | [_ E']]; discriminate.
Qed.

Lemma MatchFiles_empty_iff_witness :
  exists paths err,
    MatchFiles Fixture.deps (Fixture.ranked "rotated" 1) = Returned paths err /\
    (paths = [] <->
     Fixture.found = [] \/ ([Fixture.by_name] <> [] /\ @nil string = [])).
Proof.
  apply (MatchFiles_empty_iff Fixture.deps
           (Fixture.logs {| Regex := "rotated"; TopN := 1; SortBy := [Fixture.by_name] |})
           (Fixture.ranked "rotated" 1) Fixture.found []
           None
           (Some (joinError [errorString "'/logs/app.3.log' does not match regex";
                             errorString "'/logs/app.1.log' does not match regex";
                             errorString "'/logs/app.5.log' does not match regex"])));
    reflexivity.
Defined.

(** X10.  From the configuration to the result: for a Criteria with a
    non-empty sort_by that [New] accepts, when the Finder returns files,
    [MatchFiles] returns the first paths of the ranking, as many as the
    smaller of the ranking's length and top_n, a top_n of 0 counting as 1. *)
Theorem MatchFiles_count (D : Deps) (c : Criteria) (m : Matcher D)
    (files ranked : list string) (ferr rerr : option error) :
  New D c = (Some m, None) -> SortBy (Ordering c) <> [] ->
  finder_FindFiles D (include m) (exclude m) = (files, ferr) -> files <> [] ->
  filter_Filter D files (regex m) (filterOpts m) = (ranked, rerr) ->
  exists paths dropped err,
    MatchFiles D m = Returned paths err /\
    ranked = (paths ++ dropped)%list /\
    Z.of_nat (length paths) =
      Z.min (if TopN (Ordering c) =? 0 then 1 else TopN (Ordering c))
            (Z.of_nat (length ranked)).
Proof.
  intros HN Hs HF Hf HR.
  destruct (New_ranked_topN D c m HN Hs) as (Ht & Hn & Ho).
  exists (firstn (Z.to_nat (topN m)) ranked), (skipn (Z.to_nat (topN m)) ranked).
  eexists. split; [|split].
  - apply (MatchFiles_ranked D m files ranked ferr rerr); try assumption. lia.
  - symmetry. apply firstn_skipn.
  - rewrite length_firstn.
    change (if TopN (Ordering c) =? 0 then 1 else TopN (Ordering c))
      with (resolvedTopN c).
    rewrite <- Ht. lia.
Qed.

Lemma MatchFiles_count_witness :
  exists paths dropped err,
    MatchFiles Fixture.deps (Fixture.ranked "app" 2) = Returned paths err /\
    Fixture.sorted = (paths ++ dropped)%list /\
    Z.of_nat (length paths) = Z.min 2 (Z.of_nat (length Fixture.sorted)).
Proof.
  apply (MatchFiles_count Fixture.deps
           (Fixture.logs {| Regex := "app"; TopN := 2; SortBy := [Fixture.by_name] |})
           (Fixture.ranked "app" 2) Fixture.found Fixture.sorted None None);
    [reflexivity | discriminate | reflexivity | discriminate | reflexivity].
Defined.




(** X12.  [New] returns a matcher or an error, never both and never
    neither: the matcher is nil exactly when the error is not. *)
Theorem New_matcher_xor_error (D : Deps) (c : Criteria)
    (om : option (Matcher D)) (oe : option error) :
  New D c = (om, oe) ->
  (om = None <-> oe <> None) /\ (oe = None <-> om <> None).
Proof.
  intros H. destruct (New_total D c) as [[m Hm] | [err He]].
  - rewrite Hm in H. injection H as <- <-.
    repeat split; intros E; try discriminate; try reflexivity. now elim E.
  - rewrite He in H. injection H as <- <-.
    repeat split; intros E; try discriminate; try reflexivity. now elim E.
Qed.

Lemma New_matcher_xor_error_witness :
  (@None (Matcher Fixture.deps) = None <->
   Some (errorString "'include' must be specified") <> None) /\
  (Some (errorString "'include' must be specified") = None <->
   @None (Matcher Fixture.deps) <> None).
Proof.
  apply (New_matcher_xor_error Fixture.deps
           {| Include := []; Exclude := [];
              Ordering := {| Regex := ""; TopN := 0; SortBy := [] |} |}).
  reflexivity.
Defined.

(** An occurrence of [sub] in [a ++ String c b] lies in [a] or in [b] when
    the character [c] does not occur in [sub]. *)
Lemma prefix_before_char (sub : string) :
  forall (s : string) (c : ascii) (b : string),
    strings_Contains sub (String c "") = false ->
    String.prefix sub (s ++ String c b) = true ->
    String.prefix sub s = true.
Proof.
  induction sub as [|y sub IH]; intros s c b Hfree H.
  - now destruct s.
  - cbn [strings_Contains String.prefix] in Hfree.
    destruct (ascii_dec c y) as [->|Hcy].
    { now destruct sub. }
    destruct s as [|z s]; cbn [append String.prefix] in *.
    + destruct (ascii_dec y c) as [->|_]; [now elim Hcy | discriminate].
    + destruct (ascii_dec y z); [|discriminate].
      apply (IH s c b); [|exact H].
      now destruct (String.prefix (String c "") sub).
Qed.

Lemma Contains_seam (a : string) :
  forall (sub : string) (c : ascii) (b : string),
    sub <> "" ->
    strings_Contains sub (String c "") = false ->
    strings_Contains a sub = false ->
    strings_Contains b sub = false ->
    strings_Contains (a ++ String c b) sub = false.
Proof.
  induction a as [|x a IH]; intros sub c b Hne Hfree Ha Hb.
  - cbn [append strings_Contains]. rewrite Hb.
    destruct (String.prefix sub (String c b)) eqn:E; [|reflexivity].
    apply (prefix_before_char sub "" c b Hfree) in E.
    destruct sub; [now elim Hne | discriminate].
  - cbn [append strings_Contains] in *.
    destruct (String.prefix sub (String x a)) eqn:E; [discriminate|].
    rewrite (IH sub c b Hne Hfree Ha Hb).
    destruct (String.prefix sub (String x (a ++ String c b))) eqn:E'; [|reflexivity].
    apply (prefix_before_char sub (String x a) c b Hfree) in E'. congruence.
Qed.

(** X13.  "Nothing matched" can be told from "some files errored": when
    neither the Finder's error nor the Ranking Filter's says "no files match
    the configured criteria", the message of the error that [MatchFiles]
    returns contains that text exactly when the Finder returned no file. *)
Theorem MatchFiles_no_match_message_iff (D : Deps) (m : Matcher D)
    (files ranked paths : list string) (ferr rerr err : option error) :
  finder_FindFiles D (include m) (exclude m) = (files, ferr) ->
  filter_Filter D files (regex m) (filterOpts m) = (ranked, rerr) ->
  strings_Contains (message ferr) noFilesMatch = false ->
  strings_Contains (message rerr) noFilesMatch = false ->
  MatchFiles D m = Returned paths err ->
  (strings_Contains (message err) noFilesMatch = true <-> files = []).
Proof.
  intros HF HR Hf Hr HM.
  rewrite (MatchFiles_cases D m files ranked ferr rerr HF HR) in HM.
  assert (Hjoin : strings_Contains
                    (message (errors_Join [rerr; errors_Join [None; ferr]]))
                    noFilesMatch = false).
  { rewrite message_Join2, Join_scan.
    destruct rerr as [r|], ferr as [f|]; cbn [message Error] in *;
      rewrite ?append_empty_r; try assumption.
    apply Contains_seam; [discriminate | reflexivity | assumption | assumption]. }
  destruct files as [|f files].
  - injection HM as <- <-. split; [reflexivity|]. intros _.
    rewrite message_Join2. destruct (errors_Join [None; ferr]).
    + apply Contains_here.
    + apply Contains_self.
  - assert (Hfalse : strings_Contains (message err) noFilesMatch = false).
    { destruct (filterOpts m), ranked; try destruct (topN m <? 0);
        try discriminate; injection HM as <- <-;
        try exact Hjoin; now rewrite message_Join_scan. }
    rewrite Hfalse. split; discriminate.
Qed.

Lemma MatchFiles_no_match_message_iff_witness :
  strings_Contains
    (message (Some (joinError
        [joinError [errorString "'/logs/app.3.log' does not match regex";
                    errorString "'/logs/app.1.log' does not match regex";
                    errorString "'/logs/app.5.log' does not match regex"]])))
    noFilesMatch = true
  <-> Fixture.found = [].
Proof.
  apply (MatchFiles_no_match_message_iff Fixture.deps (Fixture.ranked "rotated" 1)
           Fixture.found [] [] None
           (Some (joinError
              [errorString "'/logs/app.3.log' does not match regex";
               errorString "'/logs/app.1.log' does not match regex";
               errorString "'/logs/app.5.log' does not match regex"])));
    reflexivity.
Defined.
